(** * archive-docker: the build-matrix driver of [archive-docker.py]

    A shallow embedding of the script: the pure repository-coordinate
    resolver ([apt_date], [generate_source_list]), the stage functions
    ([build_tarball], [buildah_build], [test], [podman_push], [clean]),
    the matrix driver ([build_all]) and the command line ([parse_args],
    [main]).  External effects (subprocess invocations, file writes,
    directory creation) are recorded in a trace; exceptions are explicit. *)

From Stdlib Require Import ZArith Ascii String List Lia.
From stdpp Require Import base option list gmap strings.

Local Open Scope string_scope.
Local Open Scope list_scope.
Local Open Scope Z_scope.

(** ** Exceptions and results *)

(** The exceptions the script can raise.  [SystemExit] is what
    [argparse] raises through [parser.error]. *)
Inductive exn :=
| ValueError
| KeyError (key : string)
| TypeError
| CalledProcessError (returncode : Z) (cmd : list string)
| SystemExit (code : Z).

Inductive result (A : Type) :=
| Ok (a : A)
| Raise (e : exn).
Arguments Ok {A} a.
Arguments Raise {A} e.

Definition is_ok {A} (r : result A) : bool :=
  match r with Ok _ => true | Raise _ => false end.

#[global] Instance result_ret : MRet result := fun _ a => Ok a.
#[global] Instance result_bind : MBind result := fun _ _ f r =>
  match r with Ok a => f a | Raise e => Raise e end.

(** ** Strings *)

Definition nl : string := String "010"%char EmptyString.

(** The double-quote character. *)
Definition dq : string := String "034"%char EmptyString.

(** Python's [str.isspace] on a single character (code points below 256). *)
Definition isspace (c : ascii) : bool :=
  let n := N_of_ascii c in
  ((9 <=? n) && (n <=? 13) || (28 <=? n) && (n <=? 32)
   || (n =? 133) || (n =? 160))%N.

(** [str.lstrip()] with no argument. *)
Fixpoint lstrip (s : string) : string :=
  match s with
  | String c s' => if isspace c then lstrip s' else s
  | EmptyString => EmptyString
  end.

(** ** [datetime.date] *)

Record date := mkdate { year : Z; month : Z; day : Z }.

Definition is_leap (y : Z) : bool :=
  (y mod 4 =? 0) && (negb (y mod 100 =? 0) || (y mod 400 =? 0)).

Definition days_in_month (y m : Z) : Z :=
  if m =? 2 then (if is_leap y then 29 else 28)
  else if (m =? 4) || (m =? 6) || (m =? 9) || (m =? 11) then 30
  else 31.

(** The constructor [date(year, month, day)] with its range checks
    ([MINYEAR] = 1, [MAXYEAR] = 9999). *)
Definition new_date (y m d : Z) : result date :=
  if (1 <=? y) && (y <=? 9999) && (1 <=? m) && (m <=? 12)
     && (1 <=? d) && (d <=? days_in_month y m)
  then Ok (mkdate y m d) else Raise ValueError.

Definition digit_val (c : ascii) : option Z :=
  let n := Z.of_N (N_of_ascii c) in
  if (48 <=? n) && (n <=? 57) then Some (n - 48) else None.

Fixpoint parse_digits (acc : Z) (cs : list ascii) : option Z :=
  match cs with
  | [] => Some acc
  | c :: cs' =>
      match digit_val c with
      | Some d => parse_digits (10 * acc + d) cs'
      | None => None
      end
  end.

Definition dash : ascii := "-"%char.

(** [date.fromisoformat]: the extended calendar format [YYYY-MM-DD], ten
    characters, ASCII digits only.  (Interpreters from 3.11 on accept a
    few more ISO-8601 spellings; every string accepted here is accepted
    by all of them, with the same date.) *)
Definition fromisoformat (s : string) : result date :=
  match list_ascii_of_string s with
  | [y1; y2; y3; y4; s1; m1; m2; s2; d1; d2] =>
      match parse_digits 0 [y1; y2; y3; y4],
            parse_digits 0 [m1; m2],
            parse_digits 0 [d1; d2] with
      | Some y, Some m, Some d =>
          if Ascii.eqb s1 dash && Ascii.eqb s2 dash
          then new_date y m d else Raise ValueError
      | _, _, _ => Raise ValueError
      end
  | _ => Raise ValueError
  end.

Definition digit_char (n : Z) : ascii := ascii_of_N (Z.to_N (48 + n mod 10)).

Definition zero_pad2 (n : Z) : string :=
  String (digit_char (n / 10)) (String (digit_char n) EmptyString).

Definition zero_pad4 (n : Z) : string :=
  String (digit_char (n / 1000)) (String (digit_char (n / 100))
    (String (digit_char (n / 10)) (String (digit_char n) EmptyString))).

(** [d.strftime("%Y/%m/%d")]: the four-digit year with century and the
    zero-padded month and day of the library's documentation. *)
Definition strftime_Ymd (d : date) : string :=
  zero_pad4 (year d) +:+ "/" +:+ zero_pad2 (month d) +:+ "/" +:+ zero_pad2 (day d).

(** ** Repository coordinate resolver *)

Definition ARCH_MAP : gmap string string :=
  list_to_map [("amd64", "x86_64"); ("386", "i586"); ("arm64", "aarch64");
               ("arm", "armh"); ("ppc64le", "ppc64le")].

(** [d[k]] on a dictionary. *)
Definition dict_get (d : gmap string string) (k : string) : result string :=
  match d !! k with Some v => Ok v | None => Raise (KeyError k) end.

Definition apt_date (date : string) : result string :=
  d ← fromisoformat date; Ok (strftime_Ymd d).

Definition repo_root : string := "http://ftp.altlinux.org/pub/distributions/archive".

Definition generate_source_list (arch branch date : string) : result string :=
  date ← apt_date date;
  arch_id ← dict_get ARCH_MAP arch;
  Ok (lstrip (nl
    +:+ "rpm " +:+ repo_root +:+ "/" +:+ branch +:+ "/date/" +:+ date +:+ " " +:+ arch_id +:+ " classic" +:+ nl
    +:+ "rpm " +:+ repo_root +:+ "/" +:+ branch +:+ "/date/" +:+ date +:+ " noarch classic" +:+ nl)).

(** ** External effects *)

(** One [subprocess.run] call: the argument vector and the keyword
    arguments the script uses.  [quiet] stands for
    [stdout=DEVNULL, stderr=DEVNULL]. *)
Record command := mkcmd {
  argv : list string;
  cwd : option string;
  check : bool;
  quiet : bool;
  input : option string }.

(** What the process does to the outside: a subprocess run to completion
    (with the exit status it returned), a [Path.write_text], a
    [Path.mkdir(exist_ok=True)]. *)
Inductive event :=
| Exec (c : command) (returncode : Z)
| WriteText (path content : string)
| Mkdir (path : string).

Definition trace := list event.

(** The environment of a run: the working directory and home directory
    of the process, the exit status of every tool invocation (it may
    depend on everything done so far), and the order in which a Python
    [set] is iterated, which is some enumeration of its elements. *)
Record world := mkworld {
  getcwd : string;
  home : string;
  exit_status : trace -> command -> Z;
  set_order : gset string -> list string;
  set_order_perm : forall X, set_order X ≡ₚ elements X }.

(** Computations with effects: the trace so far goes in, the extended
    trace and a value or an exception come out. *)
Definition M (A : Type) : Type := trace -> trace * result A.

#[global] Instance M_ret : MRet M := fun _ a t => (t, Ok a).
#[global] Instance M_bind : MBind M := fun _ _ f m t =>
  match m t with
  | (t', Ok a) => f a t'
  | (t', Raise e) => (t', Raise e)
  end.

Definition lift {A} (r : result A) : M A := fun t => (t, r).

Definition emit (e : event) : M unit := fun t => (t ++ [e], Ok tt).

(** [if c: body] *)
Definition when (c : bool) (body : M unit) : M unit :=
  if c then body else mret tt.

(** [for x in xs: body(x)] *)
Fixpoint for_each {A} (xs : list A) (body : A -> M unit) : M unit :=
  match xs with
  | [] => mret tt
  | x :: xs' => body x;; for_each xs' body
  end.

(** [pathlib]'s [/] on the plain names the script joins. *)
Definition path_join (d f : string) : string :=
  if String.prefix "/" f then f
  else if String.eqb d "/" then d +:+ f
  else d +:+ "/" +:+ f.

(** [subprocess.run(argv)] with no keyword argument. *)
Definition run (args : list string) : command :=
  {| argv := args; cwd := None; check := false; quiet := false; input := None |}.

Definition INTERNAL_CONTAINER : string := "archive-docker".

Section Driver.

Variable w : world.

Definition subprocess_run (c : command) : M unit := fun t =>
  let rc := exit_status w t c in
  (t ++ [Exec c rc],
   if check c && negb (rc =? 0)
   then Raise (CalledProcessError rc (argv c)) else Ok tt).

Definition APT_CONF : string := path_join (getcwd w) "apt.conf".
Definition SOURCE_LIST : string := path_join (getcwd w) "source.list".
Definition CWD : string := getcwd w.

Definition apt_conf_text : string :=
  lstrip (nl
    +:+ "Dir::Etc::main " +:+ dq +:+ "/dev/null" +:+ dq +:+ ";" +:+ nl
    +:+ "Dir::Etc::parts " +:+ dq +:+ "/var/empty" +:+ dq +:+ ";" +:+ nl
    +:+ "Dir::Etc::SourceList " +:+ dq +:+ SOURCE_LIST +:+ dq +:+ ";" +:+ nl
    +:+ "Dir::Etc::SourceParts " +:+ dq +:+ "/var/empty" +:+ dq +:+ ";" +:+ nl
    +:+ "Dir::Etc::preferences " +:+ dq +:+ "/dev/null" +:+ dq +:+ ";" +:+ nl
    +:+ "Dir::Etc::preferencesparts " +:+ dq +:+ "/var/empty" +:+ dq +:+ ";" +:+ nl).

Definition create_apt_files (arch branch date : string) : M unit :=
  emit (WriteText APT_CONF apt_conf_text);;
  text ← lift (generate_source_list arch branch date);
  emit (WriteText SOURCE_LIST text).

Definition make_command (arch_id branch out_dir mkimage_profiles_dir : string) : command :=
  {| argv := ["make";
              "APTCONF=" +:+ APT_CONF;
              "ARCH=" +:+ arch_id;
              "BRANCH=" +:+ branch;
              "IMAGE_OUTDIR=" +:+ out_dir;
              "IMAGE_OUTFILE=alt.tar.xz";
              "ve/docker.tar.xz"];
     cwd := Some mkimage_profiles_dir;
     check := true; quiet := false; input := None |}.

Definition make (arch branch out_dir mkimage_profiles_dir : string) : M unit :=
  arch_id ← lift (dict_get ARCH_MAP arch);
  subprocess_run (make_command arch_id branch out_dir mkimage_profiles_dir).

Definition build_tarball (arch branch date mkimage_profiles_dir : string) : M unit :=
  create_apt_files arch branch date;;
  let out_dir := path_join CWD arch in
  emit (Mkdir out_dir);;
  make arch branch out_dir mkimage_profiles_dir.

(** The three best-effort removals: [check=False], output discarded. *)
Definition best_effort (args : list string) : command :=
  {| argv := args; cwd := None; check := false; quiet := true; input := None |}.

Definition remove_manifest (name : string) : M unit :=
  subprocess_run (best_effort ["buildah"; "manifest"; "rm"; name]).

Definition remove_image (name : string) : M unit :=
  subprocess_run (best_effort ["buildah"; "image"; "rm"; name]).

Definition remove_container (name : string) : M unit :=
  subprocess_run (best_effort ["buildah"; "rm"; name]).

Definition container_name (arch : string) : string :=
  INTERNAL_CONTAINER +:+ "-" +:+ arch.

(** The command of the inner function [run_command_in_container] of
    [buildah_build]; the keyword arguments it forwards are [input] or
    nothing. *)
Definition in_container (container : string) (cmd : list string)
    (inp : option string) : command :=
  {| argv := ["buildah"; "run"; container] ++ cmd;
     cwd := None; check := false; quiet := false; input := inp |}.

Definition run_command_in_container (container : string) (cmd : list string)
    (inp : option string) : M unit :=
  subprocess_run (in_container container cmd inp).

(** Truth value of [packages]: [None] and the empty list are false. *)
Definition truthy (packages : option (list string)) : bool :=
  match packages with Some (_ :: _) => true | _ => false end.

Definition from_command (arch container : string) : command :=
  run ["buildah"; "from"; "--arch"; arch; "--name"; container; "scratch"].

Definition add_command (arch container : string) : command :=
  {| argv := ["buildah"; "add"; container; "alt.tar.xz"; "/"];
     cwd := Some (path_join CWD arch);
     check := false; quiet := false; input := None |}.

Definition limits_command : list string :=
  ["sh"; "-c"; "true > /etc/security/limits.d/50-defaults.conf"].

Definition sources_command : list string :=
  ["sh"; "-c"; "cat > /etc/apt/sources.list.d/alt.list"].

Definition purge_command : list string :=
  ["sh"; "-c";
   "rm -f /var/cache/apt/archives/*.rpm /var/cache/apt/*.bin /var/lib/apt/lists/*.*"].

Definition config_command (container : string) : command :=
  run ["buildah"; "config"; "--cmd"; "[" +:+ dq +:+ "/bin/bash" +:+ dq +:+ "]"; container].

Definition commit_command (manifest container image : string) : command :=
  run ["buildah"; "commit"; "--rm"; "--manifest"; manifest; container; image].

Definition buildah_build (arch branch date manifest image : string)
    (packages : option (list string)) : M unit :=
  let container := container_name arch in
  remove_image image;;
  remove_container container;;
  subprocess_run (from_command arch container);;
  subprocess_run (add_command arch container);;
  run_command_in_container container limits_command None;;
  text ← lift (generate_source_list arch branch date);
  run_command_in_container container sources_command (Some text);;
  when (truthy packages)
    (run_command_in_container container ["apt-get"; "update"] None;;
     run_command_in_container container
       (["apt-get"; "install"; "-y"] ++ default [] packages) None;;
     run_command_in_container container purge_command None);;
  subprocess_run (config_command container);;
  subprocess_run (commit_command manifest container image).

Definition sources_file : string := "/etc/apt/sources.list.d/alt.list".

(** One check of [test]: [podman run --rm image ...] with [check=True]. *)
Definition check_command (image : string) (cmd : list string) : command :=
  {| argv := ["podman"; "run"; "--rm"; image] ++ cmd;
     cwd := None; check := true; quiet := false; input := None |}.

Definition test (arch branch date image : string) : M unit :=
  arch_id ← lift (dict_get ARCH_MAP arch);
  d ← lift (apt_date date);
  let commands :=
    map (fun value => ["grep"; "-q"; value; sources_file]) [branch; arch_id; d]
    ++ [["sh"; "-c"; "apt-get update && apt-get install -y ncdu"]] in
  for_each commands (fun cmd => subprocess_run (check_command image cmd)).

Definition push_command (image : string) : command :=
  run ["podman"; "manifest"; "push"; image; "docker://" +:+ image].

Definition podman_push (image : string) : M unit :=
  subprocess_run (push_command image).

(** [for date in dates]: iterating [None] raises [TypeError]. *)
Definition iterate (dates : option (list string)) : result (list string) :=
  match dates with Some ds => Ok ds | None => Raise TypeError end.

(** [stage in stages] *)
Definition has (stage : string) (stages : gset string) : bool :=
  bool_decide (stage ∈ stages).

Definition manifest_name (registry organization name branch date : string) : string :=
  (registry +:+ "/" +:+ organization) +:+ "/" +:+ name +:+ ":" +:+ branch +:+ "-" +:+ date.

Definition image_name (registry organization name branch date arch : string) : string :=
  (registry +:+ "/" +:+ organization) +:+ "/" +:+ name +:+ ":" +:+ branch +:+ "-" +:+ date
    +:+ "-" +:+ arch.

(** The body of [for arch in arches] in [build_all]. *)
Definition build_cell (mkimage_profiles_dir registry organization name : string)
    (stages : gset string) (packages : option (list string))
    (branch date manifest arch : string) : M unit :=
  let image := image_name registry organization name branch date arch in
  when (has "build_tarball" stages)
    (build_tarball arch branch date mkimage_profiles_dir);;
  when (has "build_image" stages)
    (buildah_build arch branch date manifest image packages);;
  when (has "test" stages) (test arch branch date image).

(** The body of [for date in dates] in [build_all]. *)
Definition build_date (arches : list string)
    (mkimage_profiles_dir registry organization name : string)
    (stages : gset string) (packages : option (list string))
    (branch date : string) : M unit :=
  let manifest := manifest_name registry organization name branch date in
  when (has "build_image" stages) (remove_manifest manifest);;
  for_each arches
    (build_cell mkimage_profiles_dir registry organization name stages packages
                branch date manifest);;
  when (has "push" stages) (podman_push manifest).

Definition build_all (arches branches : list string) (dates : option (list string))
    (mkimage_profiles_dir registry organization name : string)
    (stages : gset string) (packages : option (list string)) : M unit :=
  for_each branches (fun branch =>
    ds ← lift (iterate dates);
    for_each ds
      (build_date arches mkimage_profiles_dir registry organization name
                  stages packages branch)).

Definition prune_command : command := run ["podman"; "system"; "prune"; "-af"].

Definition clean : M unit := subprocess_run prune_command.

(** ** Command line *)

(** The options as they appear on the command line: [None] when the
    option is absent, otherwise its value or its list of values. *)
Record cli := mkcli {
  opt_registry : option string;
  opt_mkimage_profiles_dir : option string;
  opt_organization : option string;
  opt_name : option string;
  opt_dates : option (list string);
  opt_arches : option (list string);
  opt_skip_arches : option (list string);
  opt_branches : option (list string);
  opt_skip_branches : option (list string);
  opt_stages : option (list string);
  opt_skip_stages : option (list string);
  opt_packages : option (list string) }.

(** The namespace [parse_args] returns, after the three subtractions. *)
Record namespace := mknamespace {
  args_registry : string;
  args_mkimage_profiles_dir : string;
  args_organization : string;
  args_name : string;
  args_dates : option (list string);
  args_arches : gset string;
  args_branches : gset string;
  args_stages : gset string;
  args_packages : option (list string) }.

(** [parser.error]: usage message and exit status 2. *)
Definition parser_error {A} : result A := Raise (SystemExit 2).

(** An option with [nargs="+"]: at least one value, each among
    [choices] when the option has choices. *)
Definition nargs_plus (choices : option (list string)) (values : list string)
  : result (list string) :=
  match values with
  | [] => parser_error
  | _ :: _ =>
      match choices with
      | Some cs =>
          if forallb (fun v => bool_decide (v ∈ cs)) values
          then Ok values else parser_error
      | None => Ok values
      end
  end.

(** An option with [nargs="+"] and a default. *)
Definition list_option (choices : option (list string)) (default_value : list string)
    (o : option (list string)) : result (list string) :=
  match o with
  | None => Ok default_value
  | Some values => nargs_plus choices values
  end.

(** An option with [nargs="+"] and no default. *)
Definition optional_list (o : option (list string)) : result (option (list string)) :=
  match o with
  | None => Ok None
  | Some values => vs ← nargs_plus None values; Ok (Some vs)
  end.

Definition all_stages : list string := ["build_tarball"; "build_image"; "push"; "clean"; "test"].
Definition all_arches : list string := ["amd64"; "386"; "arm64"; "arm"; "ppc64le"].
Definition default_arches : list string := ["amd64"; "arm64"].
Definition all_branches : list string := ["p9"; "p10"; "sisyphus"].
Definition default_branches : list string := ["p10"; "sisyphus"].

(** [set(xs)] *)
Definition set_of (xs : list string) : gset string := list_to_set xs.

Definition parse_args (c : cli) : result namespace :=
  let registry := default "registry.altlinux.org" (opt_registry c) in
  let mkimage_profiles_dir :=
    default (path_join (home w) "build/mkimage-profiles")
            (opt_mkimage_profiles_dir c) in
  let name := default "archive" (opt_name c) in
  dates ← optional_list (opt_dates c);
  arches ← list_option (Some all_arches) default_arches (opt_arches c);
  skip_arches ← list_option (Some all_arches) [] (opt_skip_arches c);
  branches ← list_option (Some all_branches) default_branches (opt_branches c);
  skip_branches ← list_option (Some all_arches) [] (opt_skip_branches c);
  stages ← list_option (Some all_stages) all_stages (opt_stages c);
  skip_stages ← list_option (Some all_stages) [] (opt_skip_stages c);
  packages ← optional_list (opt_packages c);
  organization ← match opt_organization c with
                 | Some o => Ok o
                 | None => parser_error
                 end;
  Ok {| args_registry := registry;
        args_mkimage_profiles_dir := mkimage_profiles_dir;
        args_organization := organization;
        args_name := name;
        args_dates := dates;
        args_arches := set_of arches ∖ set_of skip_arches;
        args_branches := set_of branches ∖ set_of skip_branches;
        args_stages := set_of stages ∖ set_of skip_stages;
        args_packages := packages |}.

Definition main (c : cli) : M unit :=
  args ← lift (parse_args c);
  let stages := args_stages args in
  build_all (set_order w (args_arches args))
            (set_order w (args_branches args))
            (args_dates args)
            (args_mkimage_profiles_dir args)
            (args_registry args)
            (args_organization args)
            (args_name args)
            stages
            (args_packages args);;
  when (has "clean" stages) clean.

End Driver.

(** ** Concrete environments, used to run the model *)

(** A world in which every tool invocation returns [rc]. *)
Definition constant_world (rc : Z) : world :=
  {| getcwd := "/work"; home := "/root";
     exit_status := fun _ _ => rc;
     set_order := elements;
     set_order_perm := fun X => reflexivity (elements X) |}.


(** [--organization alt --dates 2024-01-15 --stages clean] and the
    namespace it parses to. *)
Definition cli_clean : cli :=
  {| opt_registry := None; opt_mkimage_profiles_dir := None;
     opt_organization := Some "alt"; opt_name := None;
     opt_dates := Some ["2024-01-15"];
     opt_arches := None; opt_skip_arches := None;
     opt_branches := None; opt_skip_branches := None;
     opt_stages := Some ["clean"]; opt_skip_stages := None; opt_packages := None |}.

Definition args_clean : namespace :=
  {| args_registry := "registry.altlinux.org";
     args_mkimage_profiles_dir := "/root/build/mkimage-profiles";
     args_organization := "alt";
     args_name := "archive";
     args_dates := Some ["2024-01-15"];
     args_arches := set_of default_arches ∖ set_of [];
     args_branches := set_of default_branches ∖ set_of [];
     args_stages := set_of ["clean"] ∖ set_of [];
     args_packages := None |}.

(** [-o alt -d 2024-01-15 2024-02-01 --packages vim], all stages. *)
Definition cli_full : cli :=
  {| opt_registry := None; opt_mkimage_profiles_dir := None;
     opt_organization := Some "alt"; opt_name := None;
     opt_dates := Some ["2024-01-15"; "2024-02-01"];
     opt_arches := None; opt_skip_arches := None;
     opt_branches := None; opt_skip_branches := None;
     opt_stages := None; opt_skip_stages := None;
     opt_packages := Some ["vim"] |}.


(** [-o alt -d 2024-01-15 -a amd64 -b p10 --stages build_image push] *)
Definition cli_image_push : cli :=
  {| opt_registry := None; opt_mkimage_profiles_dir := None;
     opt_organization := Some "alt"; opt_name := None;
     opt_dates := Some ["2024-01-15"];
     opt_arches := Some ["amd64"]; opt_skip_arches := None;
     opt_branches := Some ["p10"]; opt_skip_branches := None;
     opt_stages := Some ["build_image"; "push"]; opt_skip_stages := None;
     opt_packages := None |}.

(** [-o alt -d 2024-01-15 -b p10 sisyphus --skip-branches p10] *)
Definition cli_skip_branch : cli :=
  {| opt_registry := None; opt_mkimage_profiles_dir := None;
     opt_organization := Some "alt"; opt_name := None;
     opt_dates := Some ["2024-01-15"];
     opt_arches := None; opt_skip_arches := None;
     opt_branches := Some ["p10"; "sisyphus"]; opt_skip_branches := Some ["p10"];
     opt_stages := None; opt_skip_stages := None;
     opt_packages := None |}.

(** [-o alt -d 2024-01-15 -a amd64 arm64 --skip-arches amd64 386] *)
Definition cli_skip_arch : cli :=
  {| opt_registry := None; opt_mkimage_profiles_dir := None;
     opt_organization := Some "alt"; opt_name := None;
     opt_dates := Some ["2024-01-15"];
     opt_arches := Some ["amd64"; "arm64"]; opt_skip_arches := Some ["amd64"; "386"];
     opt_branches := None; opt_skip_branches := None;
     opt_stages := None; opt_skip_stages := None;
     opt_packages := None |}.

(** [-o alt -d 2024-01-15 -a amd64 --skip-arches amd64 --stages build_image push] *)
Definition cli_no_arch : cli :=
  {| opt_registry := None; opt_mkimage_profiles_dir := None;
     opt_organization := Some "alt"; opt_name := None;
     opt_dates := Some ["2024-01-15"];
     opt_arches := Some ["amd64"]; opt_skip_arches := Some ["amd64"];
     opt_branches := None; opt_skip_branches := None;
     opt_stages := Some ["build_image"; "push"]; opt_skip_stages := None;
     opt_packages := None |}.



(** The tool invocations of a trace: argument vector and exit status. *)
Definition invocations (t : trace) : list (list string * Z) :=
  omap (fun e => match e with Exec c rc => Some (argv c, rc) | _ => None end) t.

(** ** Vocabulary of the statements *)

(** [s.split(LF)] *)
Fixpoint split_lines (s : string) : list string :=
  match s with
  | EmptyString => [EmptyString]
  | String c s' =>
      if Ascii.eqb c "010" then EmptyString :: split_lines s'
      else match split_lines s' with
           | l :: ls => String c l :: ls
           | [] => [String c EmptyString]
           end
  end.

(** The lines of a text file: a final line feed ends the last line, it
    does not start an empty one. *)
Definition lines (s : string) : list string :=
  match reverse (split_lines s) with
  | EmptyString :: rest => reverse rest
  | _ => split_lines s
  end.

Fixpoint no_newline (s : string) : bool :=
  match s with
  | EmptyString => true
  | String c s' => negb (Ascii.eqb c "010") && no_newline s'
  end.



(** What a run did, without the exit statuses it met. *)
Inductive action :=
| Run (c : command)
| Write (path content : string)
| MakeDir (path : string).

Definition action_of (e : event) : action :=
  match e with
  | Exec c _ => Run c
  | WriteText p s => Write p s
  | Mkdir p => MakeDir p
  end.

Definition actions (t : trace) : list action := map action_of t.

(** [follows m plan]: from any trace, [m] extends the trace by a prefix
    of [plan], and by the whole of [plan] when it returns normally. *)
Definition follows {A} (m : M A) (plan : list action) : Prop :=
  forall t, exists evs,
    fst (m t) = t ++ evs
    /\ actions evs `prefix_of` plan
    /\ (is_ok (snd (m t)) = true -> actions evs = plan).

(** The fixed order of the stages, as the specification words it:
    per cell the tarball, then the image, then the checks; per (branch,
    date) the manifest reset first and the push after all architectures;
    the prune once, after the whole matrix.  The blocks of actions of
    the stages themselves are those of the code. *)
Section Plans.

Variable w : world.

Definition source_text (arch branch date : string) : string :=
  match generate_source_list arch branch date with
  | Ok text => text
  | Raise _ => EmptyString
  end.

Definition arch_id_of (arch : string) : string :=
  default EmptyString (ARCH_MAP !! arch).

Definition date_path (date : string) : string :=
  match apt_date date with Ok d => d | Raise _ => EmptyString end.

Definition build_tarball_plan (arch branch date mkimage_profiles_dir : string)
  : list action :=
  [Write (APT_CONF w) (apt_conf_text w);
   Write (SOURCE_LIST w) (source_text arch branch date);
   MakeDir (path_join (CWD w) arch);
   Run (make_command w (arch_id_of arch) branch (path_join (CWD w) arch)
          mkimage_profiles_dir)].

Definition install_commands (container : string) (packages : option (list string))
  : list command :=
  if truthy packages
  then [in_container container ["apt-get"; "update"] None;
        in_container container (["apt-get"; "install"; "-y"] ++ default [] packages) None;
        in_container container purge_command None]
  else [].

Definition buildah_build_commands (arch branch date manifest image : string)
    (packages : option (list string)) : list command :=
  let container := container_name arch in
  [best_effort ["buildah"; "image"; "rm"; image];
   best_effort ["buildah"; "rm"; container];
   from_command arch container;
   add_command w arch container;
   in_container container limits_command None;
   in_container container sources_command (Some (source_text arch branch date))]
  ++ install_commands container packages
  ++ [config_command container; commit_command manifest container image].

Definition buildah_build_plan (arch branch date manifest image : string)
    (packages : option (list string)) : list action :=
  map Run (buildah_build_commands arch branch date manifest image packages).

(** The four checks of the verifier. *)
Definition test_checks (image branch arch_id path : string) : list command :=
  [check_command image ["grep"; "-q"; branch; sources_file];
   check_command image ["grep"; "-q"; arch_id; sources_file];
   check_command image ["grep"; "-q"; path; sources_file];
   check_command image ["sh"; "-c"; "apt-get update && apt-get install -y ncdu"]].

Definition test_plan (arch branch date image : string) : list action :=
  map Run (test_checks image branch (arch_id_of arch) (date_path date)).

Definition manifest_reset (manifest : string) : action :=
  Run (best_effort ["buildah"; "manifest"; "rm"; manifest]).

Definition cell_plan (mkimage_profiles_dir registry organization name : string)
    (stages : gset string) (packages : option (list string))
    (branch date arch : string) : list action :=
  let manifest := manifest_name registry organization name branch date in
  let image := image_name registry organization name branch date arch in
  (if has "build_tarball" stages
   then build_tarball_plan arch branch date mkimage_profiles_dir else [])
  ++ (if has "build_image" stages
      then buildah_build_plan arch branch date manifest image packages else [])
  ++ (if has "test" stages then test_plan arch branch date image else []).

Definition date_plan (arches : list string)
    (mkimage_profiles_dir registry organization name : string)
    (stages : gset string) (packages : option (list string))
    (branch date : string) : list action :=
  let manifest := manifest_name registry organization name branch date in
  (if has "build_image" stages then [manifest_reset manifest] else [])
  ++ flat_map (cell_plan mkimage_profiles_dir registry organization name
                 stages packages branch date) arches
  ++ (if has "push" stages then [Run (push_command manifest)] else []).

Definition matrix_plan (arches branches dates : list string)
    (mkimage_profiles_dir registry organization name : string)
    (stages : gset string) (packages : option (list string)) : list action :=
  flat_map (fun branch =>
    flat_map (date_plan arches mkimage_profiles_dir registry organization name
                stages packages branch) dates) branches.

Definition run_plan (args : namespace) : list action :=
  matrix_plan (set_order w (args_arches args)) (set_order w (args_branches args))
    (default [] (args_dates args))
    (args_mkimage_profiles_dir args) (args_registry args)
    (args_organization args) (args_name args)
    (args_stages args) (args_packages args)
  ++ (if has "clean" (args_stages args) then [Run prune_command] else []).

End Plans.

(** A [buildah manifest rm ...] invocation. *)
Definition is_manifest_rm (a : action) : bool :=
  match a with
  | Run c =>
      match argv c with
      | a0 :: a1 :: a2 :: _ =>
          String.eqb a0 "buildah" && String.eqb a1 "manifest" && String.eqb a2 "rm"
      | _ => false
      end
  | _ => false
  end.

(** The command line [c] with another value of [--stages]. *)
Definition with_stages (c : cli) (stages : option (list string)) : cli :=
  {| opt_registry := opt_registry c;
     opt_mkimage_profiles_dir := opt_mkimage_profiles_dir c;
     opt_organization := opt_organization c;
     opt_name := opt_name c;
     opt_dates := opt_dates c;
     opt_arches := opt_arches c;
     opt_skip_arches := opt_skip_arches c;
     opt_branches := opt_branches c;
     opt_skip_branches := opt_skip_branches c;
     opt_stages := stages;
     opt_skip_stages := opt_skip_stages c;
     opt_packages := opt_packages c |}.

(** The plan of a whole run from its command line. *)
Definition main_plan (w : world) (c : cli) : list action :=
  match parse_args w c with
  | Ok args => run_plan w args
  | Raise _ => []
  end.







(** A [podman system prune] invocation. *)
Definition is_prune (a : action) : bool :=
  match a with
  | Run c =>
      match argv c with
      | a0 :: a1 :: a2 :: _ =>
          String.eqb a0 "podman" && String.eqb a1 "system" && String.eqb a2 "prune"
      | _ => false
      end
  | _ => false
  end.

(** * Properties *)

(** ** Dates *)







(** ** Lines of a text *)

Lemma append_assoc (a b c : string) : (a +:+ b) +:+ c = a +:+ b +:+ c.
Proof.
  induction a as [|x a IH]; [reflexivity|].
  change (String x ((a +:+ b) +:+ c) = String x (a +:+ b +:+ c)).
  by rewrite IH.
Qed.

Lemma no_newline_app a b : no_newline (a +:+ b) = no_newline a && no_newline b.
Proof.
  induction a as [|c a IH]; simpl; [reflexivity|].
  rewrite IH. apply andb_assoc.
Qed.

Lemma split_lines_cons a rest :
  no_newline a = true ->
  split_lines (a +:+ String "010" rest) = a :: split_lines rest.
Proof.
  induction a as [|c a IH]; simpl; intros H; [reflexivity|].
  apply andb_true_iff in H as [Hc Ha].
  apply negb_true_iff in Hc. rewrite Hc, (IH Ha). reflexivity.
Qed.







Lemma all_branches_no_newline branch :
  branch ∈ all_branches -> no_newline branch = true.
Proof.
  intros H. unfold all_branches in H.
  repeat (apply elem_of_cons in H as [-> | H]; [reflexivity|]).
  by apply elem_of_nil in H.
Qed.


(** ** The source list (C2, C8) *)



(** C8 as stated fails: a date string that is not an ISO date makes the
    resolver raise although the architecture is in the table. *)
Lemma generate_source_list_raises_on_malformed_date :
  ARCH_MAP !! "amd64" = Some "x86_64"
  /\ generate_source_list "amd64" "p10" "yesterday" = Raise ValueError.
Proof. split; vm_compute; reflexivity. Qed.

(** C8, amended: the resolver has two failure modes, the architecture
    not in the table ([KeyError]) and the date string not an ISO date
    ([ValueError], checked first); for every branch it returns the text
    exactly when neither occurs. *)
Theorem generate_source_list_failure_modes arch branch date :
  match generate_source_list arch branch date with
  | Ok text =>
      exists arch_id d, ARCH_MAP !! arch = Some arch_id
                        /\ fromisoformat date = Ok d
  | Raise e =>
      (e = ValueError /\ fromisoformat date = Raise ValueError)
      \/ (e = KeyError arch /\ ARCH_MAP !! arch = None
          /\ exists d, fromisoformat date = Ok d)
  end.
Proof.
  unfold generate_source_list, apt_date, dict_get.
  destruct (ARCH_MAP !! arch) as [arch_id|] eqn:Ha;
    destruct (fromisoformat date) as [d|e] eqn:Hd; cbn [mbind result_bind].
  1: eauto.
  2: right; eauto.
  all: left; split; [|f_equal];
    unfold fromisoformat, new_date in Hd;
    repeat (match type of Hd with
            | context [match ?x with _ => _ end] => destruct x
            end; try discriminate); congruence.
Qed.

(** ** Traces of effectful computations *)

Section Follows.

Variable w : world.

Lemma bind_run {A B} (m : M A) (f : A -> M B) t :
  (m ≫= f) t = match m t with
               | (t', Ok a) => f a t'
               | (t', Raise e) => (t', Raise e)
               end.
Proof. reflexivity. Qed.

Lemma lift_ok_bind {A B} (a : A) (f : A -> M B) t : (lift (Ok a) ≫= f) t = f a t.
Proof. reflexivity. Qed.


Lemma follows_ret {A} (a : A) : follows (mret a : M A) [].
Proof.
  intros t. exists []. cbn. rewrite app_nil_r. repeat split. apply prefix_nil.
Qed.

Lemma follows_lift {A} (r : result A) : follows (lift r) [].
Proof.
  intros t. exists []. cbn. rewrite app_nil_r. repeat split. apply prefix_nil.
Qed.

Lemma follows_emit e : follows (emit e) [action_of e].
Proof. intros t. exists [e]. cbn. split; [|split]; reflexivity || auto. Qed.

Lemma follows_subprocess_run c : follows (subprocess_run w c) [Run c].
Proof.
  intros t. exists [Exec c (exit_status w t c)]. cbn.
  split; [|split]; reflexivity || auto.
Qed.

Lemma follows_bind {A B} (m : M A) (f : A -> M B) p q :
  follows m p -> (forall a, follows (f a) q) -> follows (m ≫= f) (p ++ q).
Proof.
  intros Hm Hf t. rewrite bind_run.
  destruct (Hm t) as (evs & Ht & Hpre & Hok).
  destruct (m t) as [t' [a|e]]; cbn in Ht, Hok; subst t'.
  - destruct (Hf a (t ++ evs)) as (evs' & Ht' & Hpre' & Hok').
    exists (evs ++ evs'). rewrite Ht', app_assoc. split; [reflexivity|].
    unfold actions in *. rewrite map_app, (Hok eq_refl). split.
    + by apply prefix_app.
    + intros H. by rewrite (Hok' H).
  - exists evs. cbn. split; [reflexivity|]. split; [|discriminate].
    by apply prefix_app_r.
Qed.

Lemma follows_seq {A} (m : M unit) (k : M A) p q :
  follows m p -> follows k q -> follows (m;; k) (p ++ q).
Proof. intros Hm Hk. apply follows_bind; auto. Qed.

Lemma follows_lift_bind {A B} (r : result A) (f : A -> M B) q :
  (forall a, r = Ok a -> follows (f a) q) -> follows (lift r ≫= f) q.
Proof.
  intros Hf t. rewrite bind_run. unfold lift.
  destruct r as [a|e].
  - apply (Hf a eq_refl).
  - exists []. cbn. rewrite app_nil_r. split; [reflexivity|].
    split; [apply prefix_nil | discriminate].
Qed.

Lemma follows_when (c : bool) (m : M unit) p :
  follows m p -> follows (when c m) (if c then p else []).
Proof. destruct c; [auto | intros _; apply follows_ret]. Qed.

Lemma follows_for_each {A} (xs : list A) (body : A -> M unit) plan :
  (forall x, follows (body x) (plan x)) ->
  follows (for_each xs body) (flat_map plan xs).
Proof.
  intros Hb. induction xs as [|x xs IH]; cbn [for_each flat_map].
  - apply follows_ret.
  - apply follows_seq; auto.
Qed.

End Follows.

(** ** The stages follow their plans *)

Section Stages.

Variable w : world.

Lemma follows_eq {A} (m : M A) p p' : follows m p -> p = p' -> follows m p'.
Proof. by intros H <-. Qed.

Lemma source_text_ok arch branch date text :
  generate_source_list arch branch date = Ok text ->
  text = source_text arch branch date.
Proof. unfold source_text. by intros ->. Qed.

Lemma arch_id_of_ok arch arch_id :
  dict_get ARCH_MAP arch = Ok arch_id -> arch_id = arch_id_of arch.
Proof.
  unfold dict_get, arch_id_of. destruct (ARCH_MAP !! arch); [|discriminate].
  by intros [= ->].
Qed.

Lemma date_path_ok date d : apt_date date = Ok d -> d = date_path date.
Proof. unfold date_path. by intros ->. Qed.

Lemma follows_build_tarball arch branch date dir :
  follows (build_tarball w arch branch date dir)
          (build_tarball_plan w arch branch date dir).
Proof.
  unfold build_tarball, create_apt_files, make.
  eapply follows_eq.
  - apply follows_seq.
    + apply follows_seq; [apply follows_emit|].
      apply follows_lift_bind. intros text Ht.
      rewrite (source_text_ok _ _ _ _ Ht). apply follows_emit.
    + apply follows_seq; [apply follows_emit|].
      apply follows_lift_bind. intros arch_id Ha.
      rewrite (arch_id_of_ok _ _ Ha). apply follows_subprocess_run.
  - reflexivity.
Qed.

Lemma follows_buildah_build arch branch date manifest image packages :
  follows (buildah_build w arch branch date manifest image packages)
          (buildah_build_plan w arch branch date manifest image packages).
Proof.
  unfold buildah_build, remove_image, remove_container, run_command_in_container.
  eapply follows_eq.
  - do 5 (apply follows_seq; [apply follows_subprocess_run|]).
    apply follows_lift_bind. intros text Ht.
    rewrite (source_text_ok _ _ _ _ Ht).
    apply follows_seq; [apply follows_subprocess_run|].
    apply follows_seq.
    + apply follows_when.
      do 2 (apply follows_seq; [apply follows_subprocess_run|]).
      apply follows_subprocess_run.
    + apply follows_seq; apply follows_subprocess_run.
  - unfold buildah_build_plan, buildah_build_commands, install_commands.
    destruct (truthy packages); reflexivity.
Qed.

Lemma follows_test arch branch date image :
  follows (test w arch branch date image) (test_plan arch branch date image).
Proof.
  unfold test.
  apply follows_lift_bind. intros arch_id Ha. rewrite (arch_id_of_ok _ _ Ha).
  apply follows_lift_bind. intros d Hd. rewrite (date_path_ok _ _ Hd).
  eapply follows_eq.
  - apply follows_for_each. intros cmd. apply follows_subprocess_run.
  - reflexivity.
Qed.

Lemma follows_build_cell dir registry organization name stages packages
    branch date arch :
  follows (build_cell w dir registry organization name stages packages branch date
             (manifest_name registry organization name branch date) arch)
          (cell_plan w dir registry organization name stages packages branch date arch).
Proof.
  unfold build_cell, cell_plan.
  apply follows_seq; [apply follows_when, follows_build_tarball|].
  apply follows_seq; [apply follows_when, follows_buildah_build|].
  apply follows_when, follows_test.
Qed.

Lemma follows_build_date arches dir registry organization name stages packages
    branch date :
  follows (build_date w arches dir registry organization name stages packages
             branch date)
          (date_plan w arches dir registry organization name stages packages
             branch date).
Proof.
  unfold build_date, date_plan.
  apply follows_seq; [apply follows_when, follows_subprocess_run|].
  apply follows_seq.
  - apply follows_for_each. intros arch. apply follows_build_cell.
  - apply follows_when, follows_subprocess_run.
Qed.

Lemma follows_build_all arches branches dates dir registry organization name
    stages packages :
  follows (build_all w arches branches dates dir registry organization name
             stages packages)
          (matrix_plan w arches branches (default [] dates) dir registry
             organization name stages packages).
Proof.
  unfold build_all, matrix_plan.
  apply follows_for_each. intros branch.
  apply follows_lift_bind. intros ds Hds.
  destruct dates as [ds'|]; [|discriminate].
  injection Hds as ->. cbn [default].
  apply follows_for_each. intros date. apply follows_build_date.
Qed.

Lemma follows_main (c : cli) : follows (main w c) (main_plan w c).
Proof.
  unfold main, main_plan.
  apply follows_lift_bind. intros args ->. unfold run_plan.
  apply follows_seq; [apply follows_build_all|].
  apply follows_when, follows_subprocess_run.
Qed.

(** What [follows] says about the events themselves. *)
Lemma follows_Forall {A} (m : M A) plan (P : action -> Prop) :
  follows m plan -> Forall P plan ->
  forall t, exists evs, fst (m t) = t ++ evs /\ Forall (fun e => P (action_of e)) evs.
Proof.
  intros Hm HP t. destruct (Hm t) as (evs & Ht & [k ->] & _).
  exists evs. split; [exact Ht|].
  apply Forall_app in HP as [HP _]. unfold actions in HP.
  exact (proj1 (List.Forall_map action_of P evs) HP).
Qed.

End Stages.

(** ** Best-effort removals (C9) *)

(** C9: whatever exit status [buildah] returns, the three removals
    return normally, with the tool's output discarded and no check of
    the status, and what comes next in the run is executed. *)
Theorem removals_never_raise (w : world) (name : string) (t : trace) :
  let rm_manifest := best_effort ["buildah"; "manifest"; "rm"; name] in
  let rm_image := best_effort ["buildah"; "image"; "rm"; name] in
  let rm_container := best_effort ["buildah"; "rm"; name] in
  remove_manifest w name t
    = (t ++ [Exec rm_manifest (exit_status w t rm_manifest)], Ok tt)
  /\ remove_image w name t
    = (t ++ [Exec rm_image (exit_status w t rm_image)], Ok tt)
  /\ remove_container w name t
    = (t ++ [Exec rm_container (exit_status w t rm_container)], Ok tt)
  /\ (forall args, quiet (best_effort args) = true /\ check (best_effort args) = false)
  /\ (forall (k : M unit),
        (remove_manifest w name;; k) t = k (fst (remove_manifest w name t))
        /\ (remove_image w name;; k) t = k (fst (remove_image w name t))
        /\ (remove_container w name;; k) t = k (fst (remove_container w name t))).
Proof. repeat split. Qed.

(** ** The verifier (C6) *)




(** ** Runs that request no build, test or push stage (C10) *)

Lemma for_each_skip {A} (xs : list A) (body : A -> M unit) :
  (forall x t, body x t = (t, Ok tt)) ->
  forall t, for_each xs body t = (t, Ok tt).
Proof.
  intros Hb. induction xs as [|x xs IH]; intros t; [reflexivity|].
  cbn [for_each]. rewrite bind_run, Hb. apply IH.
Qed.

Lemma build_all_no_stage (w : world) arches branches dates dir registry
    organization name stages packages t :
  has "build_tarball" stages = false ->
  has "build_image" stages = false ->
  has "test" stages = false ->
  has "push" stages = false ->
  build_all w arches branches (Some dates) dir registry organization name
            stages packages t = (t, Ok tt).
Proof.
  intros H1 H2 H3 H4. unfold build_all, iterate.
  apply for_each_skip. clear t. intros branch t.
  rewrite lift_ok_bind. apply for_each_skip. clear t. intros date t.
  unfold build_date. rewrite H2, H4. cbn [when].
  rewrite bind_run. cbn [mret M_ret]. rewrite bind_run.
  rewrite for_each_skip; [reflexivity|].
  clear t. intros arch t. unfold build_cell. rewrite H1, H2, H3. reflexivity.
Qed.

(** C10: when the effective stage set contains none of [build_tarball],
    [build_image], [test], [push], the driver goes through the whole
    matrix (whatever its size) and returns without any tool invocation
    or file write; the run as a whole then does nothing, or a single
    [podman system prune -af] when [clean] is in the set. *)
Theorem no_stage_no_effect (w : world) (c : cli) (args : namespace)
    (dates : list string) (t : trace) :
  parse_args w c = Ok args ->
  args_dates args = Some dates ->
  has "build_tarball" (args_stages args) = false ->
  has "build_image" (args_stages args) = false ->
  has "test" (args_stages args) = false ->
  has "push" (args_stages args) = false ->
  build_all w (set_order w (args_arches args)) (set_order w (args_branches args))
     (args_dates args) (args_mkimage_profiles_dir args) (args_registry args)
     (args_organization args) (args_name args) (args_stages args)
     (args_packages args) t = (t, Ok tt)
  /\ main w c t
     = (if has "clean" (args_stages args)
        then t ++ [Exec prune_command (exit_status w t prune_command)]
        else t, Ok tt).
Proof.
  intros Hp Hd H1 H2 H3 H4.
  assert (build_all w (set_order w (args_arches args))
            (set_order w (args_branches args))
            (args_dates args) (args_mkimage_profiles_dir args) (args_registry args)
            (args_organization args) (args_name args) (args_stages args)
            (args_packages args) t = (t, Ok tt)) as Hb
    by (rewrite Hd; by apply build_all_no_stage).
  split; [exact Hb|].
  unfold main. rewrite Hp, lift_ok_bind, bind_run, Hb.
  destruct (has "clean" (args_stages args)); reflexivity.
Qed.

Lemma no_stage_no_effect_witness :
  parse_args (constant_world 0) cli_clean = Ok args_clean
  /\ args_dates args_clean = Some ["2024-01-15"]
  /\ has "build_tarball" (args_stages args_clean) = false
  /\ has "build_image" (args_stages args_clean) = false
  /\ has "test" (args_stages args_clean) = false
  /\ has "push" (args_stages args_clean) = false
  /\ build_all (constant_world 0)
       (set_order (constant_world 0) (args_arches args_clean))
       (set_order (constant_world 0) (args_branches args_clean))
       (args_dates args_clean) (args_mkimage_profiles_dir args_clean)
       (args_registry args_clean) (args_organization args_clean)
       (args_name args_clean) (args_stages args_clean)
       (args_packages args_clean) [] = ([], Ok tt)
  /\ main (constant_world 0) cli_clean []
     = (if has "clean" (args_stages args_clean)
        then [] ++ [Exec prune_command
                      (exit_status (constant_world 0) [] prune_command)]
        else [], Ok tt).
Proof.
  repeat (split; [vm_compute; reflexivity|]).
  apply (no_stage_no_effect (constant_world 0) cli_clean args_clean
           ["2024-01-15"] []); vm_compute; reflexivity.
Defined.

(** ** The manifest reset (C4) *)

Lemma Forall_flat_map {A B} (P : B -> Prop) (f : A -> list B) (xs : list A) :
  (forall x, Forall P (f x)) -> Forall P (flat_map f xs).
Proof.
  intros Hf. induction xs as [|x xs IH]; cbn [flat_map]; [constructor|].
  apply Forall_app. auto.
Qed.



(** ** Stage order (C3) *)

Lemma forallb_perm {A} (f : A -> bool) (l l' : list A) :
  l ≡ₚ l' -> forallb f l = forallb f l'.
Proof.
  induction 1 as [|x l l' _ IH|x y l|l l' l'' _ IH1 _ IH2]; cbn.
  - reflexivity.
  - by rewrite IH.
  - destruct (f x), (f y); reflexivity.
  - congruence.
Qed.

Lemma nargs_plus_perm choices (l l' : list string) :
  l ≡ₚ l' ->
  nargs_plus choices l' = match nargs_plus choices l with
                          | Ok _ => Ok l'
                          | Raise e => Raise e
                          end.
Proof.
  intros Hp. unfold nargs_plus.
  destruct l as [|x l], l' as [|x' l'].
  - reflexivity.
  - by apply Permutation_nil_cons in Hp.
  - symmetry in Hp. by apply Permutation_nil_cons in Hp.
  - destruct choices as [cs|]; [|reflexivity].
    rewrite (forallb_perm _ _ _ Hp).
    by destruct (forallb _ (x' :: l')).
Qed.

Lemma nargs_plus_ok choices (l vs : list string) :
  nargs_plus choices l = Ok vs ->
  vs = l /\ l <> []
  /\ forall cs, choices = Some cs -> forall v, v ∈ l -> v ∈ cs.
Proof.
  unfold nargs_plus. destruct l as [|x l]; [discriminate|].
  destruct choices as [cs|].
  - destruct (forallb _ _) eqn:E; [|discriminate].
    intros [= <-]. repeat split; [discriminate|].
    intros ? [= <-] v Hv.
    rewrite forallb_forall in E. apply list_elem_of_In, E in Hv.
    by apply bool_decide_eq_true in Hv.
  - intros [= <-]. repeat split; discriminate.
Qed.

Lemma parse_args_stage_order (w : world) (c : cli) (l l' : list string) :
  l ≡ₚ l' ->
  parse_args w (with_stages c (Some l')) = parse_args w (with_stages c (Some l)).
Proof.
  intros Hp.
  assert (set_of l' = set_of l) as Hs
    by (unfold set_of; apply list_to_set_perm_L; by symmetry).
  unfold parse_args, with_stages.
  cbn [opt_registry opt_mkimage_profiles_dir opt_organization opt_name opt_dates
       opt_arches opt_skip_arches opt_branches opt_skip_branches opt_stages
       opt_skip_stages opt_packages].
  destruct (optional_list (opt_dates c)); cbn [mbind result_bind]; [|reflexivity].
  destruct (list_option (Some all_arches) default_arches (opt_arches c));
    cbn [mbind result_bind]; [|reflexivity].
  destruct (list_option (Some all_arches) [] (opt_skip_arches c));
    cbn [mbind result_bind]; [|reflexivity].
  destruct (list_option (Some all_branches) default_branches (opt_branches c));
    cbn [mbind result_bind]; [|reflexivity].
  destruct (list_option (Some all_arches) [] (opt_skip_branches c));
    cbn [mbind result_bind]; [|reflexivity].
  cbn [list_option]. rewrite (nargs_plus_perm _ _ _ Hp).
  destruct (nargs_plus (Some all_stages) l) as [vs|] eqn:E;
    cbn [mbind result_bind]; [|reflexivity].
  apply nargs_plus_ok in E as [-> _].
  rewrite Hs. reflexivity.
Qed.

(** C3: in whatever order the stages are supplied on the command line,
    the run is the same, and it follows the plan of the fixed order:
    for each (branch, date) the cells one after the other, each cell
    with its tarball, then its image, then its checks; the push once
    the cells of that (branch, date) are done; the prune once, after the
    whole matrix.  A run that returns has performed exactly this plan; a
    run that is aborted has performed a beginning of it. *)
Theorem stages_run_in_fixed_order (w : world) (c : cli) (l l' : list string) :
  l ≡ₚ l' ->
  (forall t, main w (with_stages c (Some l')) t = main w (with_stages c (Some l)) t)
  /\ follows (main w (with_stages c (Some l')))
             (main_plan w (with_stages c (Some l)))
  /\ (forall args, parse_args w (with_stages c (Some l)) = Ok args ->
        main_plan w (with_stages c (Some l))
        = flat_map (fun branch =>
            flat_map (fun date =>
              let manifest := manifest_name (args_registry args)
                                (args_organization args) (args_name args) branch date in
              (if has "build_image" (args_stages args)
               then [manifest_reset manifest] else [])
              ++ flat_map (fun arch =>
                   let image := image_name (args_registry args)
                                  (args_organization args) (args_name args)
                                  branch date arch in
                   (if has "build_tarball" (args_stages args)
                    then build_tarball_plan w arch branch date
                           (args_mkimage_profiles_dir args) else [])
                   ++ (if has "build_image" (args_stages args)
                       then buildah_build_plan w arch branch date manifest image
                              (args_packages args) else [])
                   ++ (if has "test" (args_stages args)
                       then test_plan arch branch date image else []))
                   (set_order w (args_arches args))
              ++ (if has "push" (args_stages args)
                  then [Run (push_command manifest)] else []))
              (default [] (args_dates args)))
            (set_order w (args_branches args))
          ++ (if has "clean" (args_stages args) then [Run prune_command] else [])).
Proof.
  intros Hp.
  assert (forall t, main w (with_stages c (Some l')) t
                    = main w (with_stages c (Some l)) t) as Hmain
    by (intros t; unfold main; by rewrite (parse_args_stage_order w c l l' Hp)).
  split; [exact Hmain|]. split.
  - intros t. rewrite Hmain. apply follows_main.
  - intros args Hargs. unfold main_plan. rewrite Hargs. reflexivity.
Qed.

(** A run in which every tool succeeds returns and has performed the
    whole plan: here 2 branches, 2 dates, 2 architectures, all stages. *)
Example full_run_performs_plan :
  snd (main (constant_world 0) cli_full []) = Ok tt
  /\ actions (fst (main (constant_world 0) cli_full []))
     = main_plan (constant_world 0) cli_full
  /\ length (filter is_manifest_rm (main_plan (constant_world 0) cli_full)) = 4%nat.
Proof. repeat split; vm_compute; reflexivity. Qed.

Lemma stages_run_in_fixed_order_witness :
  ["test"; "build_tarball"] ≡ₚ ["build_tarball"; "test"]
  /\ (forall t, main (constant_world 0)
                  (with_stages cli_clean (Some ["build_tarball"; "test"])) t
                = main (constant_world 0)
                    (with_stages cli_clean (Some ["test"; "build_tarball"])) t)
  /\ follows (main (constant_world 0)
                (with_stages cli_clean (Some ["build_tarball"; "test"])))
             (main_plan (constant_world 0)
                (with_stages cli_clean (Some ["test"; "build_tarball"]))).
Proof.
  split; [apply perm_swap|].
  destruct (stages_run_in_fixed_order (constant_world 0) cli_clean
              ["test"; "build_tarball"] ["build_tarball"; "test"]
              (perm_swap "build_tarball" "test" [])) as (H1 & H2 & _).
  split; [exact H1 | exact H2].
Defined.

(** ** Parsing the command line *)

Lemma list_option_ok cs dflt o vs :
  list_option (Some cs) dflt o = Ok vs ->
  (o = None /\ vs = dflt)
  \/ (o = Some vs /\ vs <> [] /\ forall v, v ∈ vs -> v ∈ cs).
Proof.
  unfold list_option. destruct o as [l|].
  - intros H. apply nargs_plus_ok in H as (-> & Hne & Hin). right. eauto.
  - intros [= <-]. by left.
Qed.

Lemma nargs_plus_raise choices l e :
  nargs_plus choices l = Raise e -> e = SystemExit 2.
Proof.
  unfold nargs_plus, parser_error. destruct l; [congruence|].
  destruct choices; [|discriminate].
  destruct (forallb _ _); congruence.
Qed.

Lemma list_option_raise choices dflt o e :
  list_option choices dflt o = Raise e -> e = SystemExit 2.
Proof.
  unfold list_option. destruct o; [apply nargs_plus_raise | discriminate].
Qed.

Lemma optional_list_raise o e : optional_list o = Raise e -> e = SystemExit 2.
Proof.
  unfold optional_list. destruct o as [l|]; [|discriminate].
  destruct (nargs_plus None l) eqn:E; cbn; [discriminate|].
  intros [= <-]. by apply nargs_plus_raise in E.
Qed.

(** Whenever [parse_args] fails it is through [parser.error]. *)
Lemma parse_args_raise (w : world) (c : cli) e :
  parse_args w c = Raise e -> e = SystemExit 2.
Proof.
  unfold parse_args.
  destruct (optional_list (opt_dates c)) eqn:E0; cbn [mbind result_bind];
    [|intros [= <-]; by apply optional_list_raise in E0].
  destruct (list_option _ default_arches _) eqn:E1; cbn [mbind result_bind];
    [|intros [= <-]; by apply list_option_raise in E1].
  destruct (list_option _ [] (opt_skip_arches c)) eqn:E2; cbn [mbind result_bind];
    [|intros [= <-]; by apply list_option_raise in E2].
  destruct (list_option _ default_branches _) eqn:E3; cbn [mbind result_bind];
    [|intros [= <-]; by apply list_option_raise in E3].
  destruct (list_option _ [] (opt_skip_branches c)) eqn:E4; cbn [mbind result_bind];
    [|intros [= <-]; by apply list_option_raise in E4].
  destruct (list_option _ all_stages _) eqn:E5; cbn [mbind result_bind];
    [|intros [= <-]; by apply list_option_raise in E5].
  destruct (list_option _ [] (opt_skip_stages c)) eqn:E6; cbn [mbind result_bind];
    [|intros [= <-]; by apply list_option_raise in E6].
  destruct (optional_list (opt_packages c)) eqn:E7; cbn [mbind result_bind];
    [|intros [= <-]; by apply optional_list_raise in E7].
  destruct (opt_organization c); cbn [mbind result_bind]; [discriminate|].
  unfold parser_error. by intros [= <-].
Qed.

(** What a successful [parse_args] returns: the three effective sets
    are the differences of the selected and the skipped values. *)
Lemma parse_args_ok (w : world) (c : cli) (args : namespace) :
  parse_args w c = Ok args ->
  exists arches skip_arches branches skip_branches stages skip_stages,
    list_option (Some all_arches) default_arches (opt_arches c) = Ok arches
    /\ list_option (Some all_arches) [] (opt_skip_arches c) = Ok skip_arches
    /\ list_option (Some all_branches) default_branches (opt_branches c) = Ok branches
    /\ list_option (Some all_arches) [] (opt_skip_branches c) = Ok skip_branches
    /\ list_option (Some all_stages) all_stages (opt_stages c) = Ok stages
    /\ list_option (Some all_stages) [] (opt_skip_stages c) = Ok skip_stages
    /\ optional_list (opt_dates c) = Ok (args_dates args)
    /\ args_arches args = set_of arches ∖ set_of skip_arches
    /\ args_branches args = set_of branches ∖ set_of skip_branches
    /\ args_stages args = set_of stages ∖ set_of skip_stages.
Proof.
  unfold parse_args.
  destruct (optional_list (opt_dates c)) eqn:E0; cbn [mbind result_bind];
    [|discriminate].
  destruct (list_option _ default_arches _) as [arches|] eqn:E1;
    cbn [mbind result_bind]; [|discriminate].
  destruct (list_option _ [] (opt_skip_arches c)) as [skip_arches|] eqn:E2;
    cbn [mbind result_bind]; [|discriminate].
  destruct (list_option _ default_branches _) as [branches|] eqn:E3;
    cbn [mbind result_bind]; [|discriminate].
  destruct (list_option _ [] (opt_skip_branches c)) as [skip_branches|] eqn:E4;
    cbn [mbind result_bind]; [|discriminate].
  destruct (list_option _ all_stages _) as [stages|] eqn:E5;
    cbn [mbind result_bind]; [|discriminate].
  destruct (list_option _ [] (opt_skip_stages c)) as [skip_stages|] eqn:E6;
    cbn [mbind result_bind]; [|discriminate].
  destruct (optional_list (opt_packages c)) eqn:E7; cbn [mbind result_bind];
    [|discriminate].
  destruct (opt_organization c); cbn [mbind result_bind]; [|discriminate].
  intros [= <-]. cbn.
  exists arches, skip_arches, branches, skip_branches, stages, skip_stages.
  repeat split; assumption || reflexivity.
Qed.


Lemma all_branches_not_arches b : b ∈ all_branches -> b ∉ all_arches.
Proof.
  unfold all_branches. intros H.
  repeat (apply elem_of_cons in H as [-> | H];
          [apply (bool_decide_unpack _); vm_compute; exact I|]).
  by apply elem_of_nil in H.
Qed.


(** No parsed command line has an empty set of branches: the values
    [--skip-branches] accepts are architecture names. *)
Lemma parse_args_branches_nonempty (w : world) (c : cli) (args : namespace) :
  parse_args w c = Ok args -> set_order w (args_branches args) <> [].
Proof.
  intros H.
  apply parse_args_ok in H
    as (? & ? & branches & skip & ? & ? & _ & _ & H3 & H4 & _ & _ & _ & _ & Hs & _).
  assert (exists b, b ∈ branches /\ b ∈ all_branches) as (b & Hb & Hall).
  { apply list_option_ok in H3 as [[_ ->] | (_ & Hne & Hin)].
    - exists "p10". unfold default_branches, all_branches.
      rewrite !elem_of_cons. auto.
    - destruct branches as [|b bs]; [done|]. exists b.
      split; [|apply Hin]; apply elem_of_cons; by left. }
  assert (b ∉ skip) as Hskip.
  { intros Hb'. apply list_option_ok in H4 as [[_ ->] | (_ & _ & Hin)].
    - by apply elem_of_nil in Hb'.
    - by apply (all_branches_not_arches b Hall), Hin. }
  assert (b ∈ args_branches args) as Hin
    by (rewrite Hs; unfold set_of; apply elem_of_difference; split;
        [by apply elem_of_list_to_set | by rewrite elem_of_list_to_set]).
  intros Hnil. apply elem_of_elements in Hin.
  rewrite <- (set_order_perm w), Hnil in Hin. by apply elem_of_nil in Hin.
Qed.

(** ** Configuration errors (C7) *)


Lemma run_unchecked_bind (w : world) {A} (c : command) (k : M A) t :
  check c = false ->
  (subprocess_run w c;; k) t = k (t ++ [Exec c (exit_status w t c)]).
Proof. intros Hc. rewrite bind_run. unfold subprocess_run. by rewrite Hc. Qed.




(** ** Failures of the container builder and of the push (C1) *)

(** The bootstrapper is run with [check=True]: its failure ends the run. *)
Lemma make_failure_aborts (w : world) arch arch_id branch out_dir dir t :
  ARCH_MAP !! arch = Some arch_id ->
  exit_status w t (make_command w arch_id branch out_dir dir) <> 0 ->
  make w arch branch out_dir dir t
  = (t ++ [Exec (make_command w arch_id branch out_dir dir)
             (exit_status w t (make_command w arch_id branch out_dir dir))],
     Raise (CalledProcessError
              (exit_status w t (make_command w arch_id branch out_dir dir))
              (argv (make_command w arch_id branch out_dir dir)))).
Proof.
  intros Ha Hrc. unfold make, dict_get. rewrite Ha, lift_ok_bind.
  unfold subprocess_run. cbn [check make_command andb].
  by destruct (Z.eqb_spec (exit_status w t (make_command w arch_id branch out_dir dir)) 0).
Qed.

(** The image build and the push call [subprocess.run] without
    [check=True]: on a cell whose source list can be generated they
    return normally whatever the exit statuses. *)
Lemma buildah_build_ignores_exit_status (w : world) arch branch date manifest
    image packages text t :
  generate_source_list arch branch date = Ok text ->
  snd (buildah_build w arch branch date manifest image packages t) = Ok tt
  /\ snd (podman_push w manifest t) = Ok tt
  /\ snd (clean w t) = Ok tt.
Proof.
  intros Hg. split; [|split; reflexivity].
  unfold buildah_build, remove_image, remove_container, run_command_in_container.
  rewrite Hg. rewrite !run_unchecked_bind by reflexivity.
  rewrite lift_ok_bind, run_unchecked_bind by reflexivity.
  destruct (truthy packages); cbn [when].
  - rewrite bind_run. rewrite !run_unchecked_bind by reflexivity. reflexivity.
  - rewrite bind_run. cbn [mret M_ret]. rewrite !run_unchecked_bind by reflexivity.
    reflexivity.
Qed.

(** C1 at its failing input: every tool invocation exits with status 1,
    the stages requested are [build_image] and [push]; all ten
    invocations are made, the push included, and the run returns
    normally. *)
Theorem image_build_failure_not_propagated :
  snd (main (constant_world 1) cli_image_push []) = Ok tt
  /\ invocations (fst (main (constant_world 1) cli_image_push []))
     = [(["buildah"; "manifest"; "rm";
          "registry.altlinux.org/alt/archive:p10-2024-01-15"], 1);
        (["buildah"; "image"; "rm";
          "registry.altlinux.org/alt/archive:p10-2024-01-15-amd64"], 1);
        (["buildah"; "rm"; "archive-docker-amd64"], 1);
        (["buildah"; "from"; "--arch"; "amd64"; "--name"; "archive-docker-amd64";
          "scratch"], 1);
        (["buildah"; "add"; "archive-docker-amd64"; "alt.tar.xz"; "/"], 1);
        (["buildah"; "run"; "archive-docker-amd64"; "sh"; "-c";
          "true > /etc/security/limits.d/50-defaults.conf"], 1);
        (["buildah"; "run"; "archive-docker-amd64"; "sh"; "-c";
          "cat > /etc/apt/sources.list.d/alt.list"], 1);
        (["buildah"; "config"; "--cmd"; "[" +:+ dq +:+ "/bin/bash" +:+ dq +:+ "]";
          "archive-docker-amd64"], 1);
        (["buildah"; "commit"; "--rm"; "--manifest";
          "registry.altlinux.org/alt/archive:p10-2024-01-15";
          "archive-docker-amd64";
          "registry.altlinux.org/alt/archive:p10-2024-01-15-amd64"], 1);
        (["podman"; "manifest"; "push";
          "registry.altlinux.org/alt/archive:p10-2024-01-15";
          "docker://registry.altlinux.org/alt/archive:p10-2024-01-15"], 1)].
Proof. split; vm_compute; reflexivity. Qed.

(** ** Skip lists (C5) *)


(** A branch name is never accepted by [--skip-branches], whose choices
    are the architecture names. *)
Lemma skip_branches_rejects_branches (w : world) (c : cli) l b :
  opt_skip_branches c = Some l -> b ∈ l -> b ∈ all_branches ->
  parse_args w c = Raise (SystemExit 2).
Proof.
  intros Hl Hb Hall.
  destruct (parse_args w c) as [args|e] eqn:Hp.
  - exfalso. apply parse_args_ok in Hp
      as (? & ? & ? & sb & ? & ? & _ & _ & _ & H4 & _).
    rewrite Hl in H4.
    apply list_option_ok in H4 as [[? _] | (Heq & _ & Hin)]; [discriminate|].
    injection Heq as <-. by apply (all_branches_not_arches b Hall), Hin.
  - by apply parse_args_raise in Hp as ->.
Qed.

(** The sibling option [--skip-arches] subtracts as intended, also when
    a skipped value was not selected. *)
Lemma skip_arches_subtracts (w : world) :
  exists args, parse_args w cli_skip_arch = Ok args
               /\ elements (args_arches args) = ["arm64"].
Proof. eexists. split; [reflexivity|]. vm_compute. reflexivity. Qed.

(** C5 at its failing input: selected branches [p10] and [sisyphus],
    skipped branch [p10].  The parser refuses the command line, so no
    run with the effective set [{sisyphus}] takes place. *)
Theorem skip_branches_rejected (w : world) :
  parse_args w cli_skip_branch = Raise (SystemExit 2)
  /\ forall t, main w cli_skip_branch t = (t, Raise (SystemExit 2)).
Proof.
  assert (parse_args w cli_skip_branch = Raise (SystemExit 2)) as H.
  { apply (skip_branches_rejects_branches w cli_skip_branch ["p10"] "p10").
    - reflexivity.
    - apply elem_of_cons. by left.
    - unfold all_branches. rewrite !elem_of_cons. auto. }
  split; [exact H|]. intros t. unfold main. by rewrite H.
Qed.

(** * Further properties of the stages *)

(** ** The tarball builder *)

Lemma generate_source_list_ok_mapped arch branch date text :
  generate_source_list arch branch date = Ok text ->
  exists arch_id, ARCH_MAP !! arch = Some arch_id.
Proof.
  unfold generate_source_list, dict_get.
  destruct (apt_date date); cbn [mbind result_bind]; [|discriminate].
  destruct (ARCH_MAP !! arch) as [arch_id|]; [eauto | discriminate].
Qed.


Lemma split_lines_last a : no_newline a = true -> split_lines a = [a].
Proof.
  induction a as [|c a IH]; simpl; intros H; [reflexivity|].
  apply andb_true_iff in H as [Hc Ha].
  apply negb_true_iff in Hc. rewrite Hc, (IH Ha). reflexivity.
Qed.

Lemma path_join_no_newline d f :
  no_newline d = true -> no_newline f = true -> no_newline (path_join d f) = true.
Proof.
  intros Hd Hf. unfold path_join.
  destruct (String.prefix "/" f); [exact Hf|].
  destruct (String.eqb d "/"); rewrite !no_newline_app, Hd, Hf; reflexivity.
Qed.

(** X2: the [apt.conf] the tarball builder writes.  When the path of the
    working directory has no line feed, the file has six lines; they send
    every search path of apt to [/dev/null] or [/var/empty], except
    [Dir::Etc::SourceList], which names, between double quotes, the very
    file [create_apt_files] writes the source list to. *)
Theorem apt_conf_names_source_list (w : world) :
  no_newline (getcwd w) = true ->
  lines (apt_conf_text w)
  = ["Dir::Etc::main " +:+ dq +:+ "/dev/null" +:+ dq +:+ ";";
     "Dir::Etc::parts " +:+ dq +:+ "/var/empty" +:+ dq +:+ ";";
     "Dir::Etc::SourceList " +:+ dq +:+ SOURCE_LIST w +:+ dq +:+ ";";
     "Dir::Etc::SourceParts " +:+ dq +:+ "/var/empty" +:+ dq +:+ ";";
     "Dir::Etc::preferences " +:+ dq +:+ "/dev/null" +:+ dq +:+ ";";
     "Dir::Etc::preferencesparts " +:+ dq +:+ "/var/empty" +:+ dq +:+ ";"]
  /\ forall arch branch date text t,
       generate_source_list arch branch date = Ok text ->
       fst (create_apt_files w arch branch date t)
       = t ++ [WriteText (APT_CONF w) (apt_conf_text w);
               WriteText (SOURCE_LIST w) text].
Proof.
  intros Hcwd. split.
  - assert (no_newline (SOURCE_LIST w) = true) as Hs
      by (apply path_join_no_newline; [exact Hcwd | reflexivity]).
    set (src := SOURCE_LIST w) in *.
    set (l1 := "Dir::Etc::main " +:+ dq +:+ "/dev/null" +:+ dq +:+ ";").
    set (l2 := "Dir::Etc::parts " +:+ dq +:+ "/var/empty" +:+ dq +:+ ";").
    set (l3 := "Dir::Etc::SourceList " +:+ dq +:+ src +:+ dq +:+ ";").
    set (l4 := "Dir::Etc::SourceParts " +:+ dq +:+ "/var/empty" +:+ dq +:+ ";").
    set (l5 := "Dir::Etc::preferences " +:+ dq +:+ "/dev/null" +:+ dq +:+ ";").
    set (l6 := "Dir::Etc::preferencesparts " +:+ dq +:+ "/var/empty" +:+ dq +:+ ";").
    assert (apt_conf_text w
            = l1 +:+ String "010" (l2 +:+ String "010" (l3 +:+ String "010"
                (l4 +:+ String "010" (l5 +:+ String "010"
                   (l6 +:+ String "010" EmptyString)))))) as ->.
    { subst l1 l2 l3 l4 l5 l6. unfold apt_conf_text. fold src.
      rewrite !append_assoc. reflexivity. }
    assert (no_newline l3 = true) as H3
      by (subst l3; rewrite !no_newline_app, Hs; reflexivity).
    unfold lines.
    rewrite (split_lines_cons l1), (split_lines_cons l2), (split_lines_cons l3),
      (split_lines_cons l4), (split_lines_cons l5), (split_lines_cons l6)
      by (exact H3 || reflexivity).
    reflexivity.
  - intros arch branch date text t Hg.
    unfold create_apt_files. rewrite Hg. unfold emit, lift.
    repeat (rewrite bind_run; cbn beta iota).
    cbn [fst]. by rewrite <- app_assoc.
Qed.

Lemma apt_conf_names_source_list_witness :
  no_newline (getcwd (constant_world 0)) = true
  /\ lines (apt_conf_text (constant_world 0))
     = ["Dir::Etc::main " +:+ dq +:+ "/dev/null" +:+ dq +:+ ";";
        "Dir::Etc::parts " +:+ dq +:+ "/var/empty" +:+ dq +:+ ";";
        "Dir::Etc::SourceList " +:+ dq +:+ "/work/source.list" +:+ dq +:+ ";";
        "Dir::Etc::SourceParts " +:+ dq +:+ "/var/empty" +:+ dq +:+ ";";
        "Dir::Etc::preferences " +:+ dq +:+ "/dev/null" +:+ dq +:+ ";";
        "Dir::Etc::preferencesparts " +:+ dq +:+ "/var/empty" +:+ dq +:+ ";"].
Proof.
  split; [reflexivity|].
  apply (apt_conf_names_source_list (constant_world 0)). reflexivity.
Defined.

(** ** The image builder *)

(** The events of the image build on a cell whose source list can be
    generated. *)
Lemma buildah_build_trace (w : world) arch branch date manifest image packages
    text t :
  generate_source_list arch branch date = Ok text ->
  exists evs,
    buildah_build w arch branch date manifest image packages t = (t ++ evs, Ok tt)
    /\ actions evs
       = map Run (buildah_build_commands w arch branch date manifest image packages).
Proof.
  intros Hg.
  destruct (follows_buildah_build w arch branch date manifest image packages t)
    as (evs & Ht & _ & Hok).
  destruct (buildah_build_ignores_exit_status w arch branch date manifest image
              packages text t Hg) as [Hr _].
  exists evs. split.
  - destruct (buildah_build w arch branch date manifest image packages t) as [t' r].
    cbn in Ht, Hr. by subst.
  - apply Hok. by rewrite Hr.
Qed.

Lemma actions_elem_of (evs : list event) (c : command) :
  Run c ∈ actions evs -> exists rc, Exec c rc ∈ evs.
Proof.
  unfold actions. intros H. apply list_elem_of_In, in_map_iff in H as (e & He & Hin).
  destruct e as [c' rc| |]; cbn in He; try discriminate.
  injection He as ->. exists rc. by apply list_elem_of_In.
Qed.



Lemma build_tarball_events (w : world) arch branch date dir text t :
  generate_source_list arch branch date = Ok text ->
  exists rest,
    fst (build_tarball w arch branch date dir t)
    = t ++ WriteText (APT_CONF w) (apt_conf_text w)
          :: WriteText (SOURCE_LIST w) text :: rest.
Proof.
  intros Hg. destruct (generate_source_list_ok_mapped _ _ _ _ Hg) as [arch_id Ha].
  unfold build_tarball, create_apt_files, make, dict_get. rewrite Hg, Ha.
  unfold emit, subprocess_run, lift.
  repeat (rewrite bind_run; cbn beta iota).
  cbn [fst]. rewrite <- !app_assoc. cbn [app]. eauto.
Qed.

(** X4: the bootstrapper and the image get the same source list.  On a
    cell whose source list can be generated, the text [build_tarball]
    writes to [source.list] is the text [buildah_build] feeds on standard
    input to [cat > /etc/apt/sources.list.d/alt.list] inside the working
    container. *)
Theorem source_list_shared (w : world) (arch branch date dir manifest image : string)
    (packages : option (list string)) (text : string) (t1 t2 : trace) :
  generate_source_list arch branch date = Ok text ->
  WriteText (SOURCE_LIST w) text ∈ fst (build_tarball w arch branch date dir t1)
  /\ exists rc,
       Exec {| argv := ["buildah"; "run"; "archive-docker-" +:+ arch; "sh"; "-c";
                        "cat > /etc/apt/sources.list.d/alt.list"];
               cwd := None; check := false; quiet := false; input := Some text |} rc
       ∈ fst (buildah_build w arch branch date manifest image packages t2).
Proof.
  intros Hg. split.
  - destruct (build_tarball_events w arch branch date dir text t1 Hg) as [rest ->].
    rewrite elem_of_app, !elem_of_cons. auto.
  - destruct (buildah_build_trace w arch branch date manifest image packages text t2 Hg)
      as (evs & -> & Hact).
    destruct (actions_elem_of evs
                (in_container (container_name arch) sources_command (Some text)))
      as [rc Hrc].
    + rewrite Hact, (source_text_ok _ _ _ _ Hg).
      unfold buildah_build_commands. cbn [map app].
      rewrite !elem_of_cons. auto 10.
    + exists rc. cbn [fst]. rewrite elem_of_app. right. exact Hrc.
Qed.

Lemma source_list_shared_witness :
  generate_source_list "amd64" "p10" "2024-01-15"
  = Ok (source_text "amd64" "p10" "2024-01-15")
  /\ WriteText (SOURCE_LIST (constant_world 0)) (source_text "amd64" "p10" "2024-01-15")
     ∈ fst (build_tarball (constant_world 0) "amd64" "p10" "2024-01-15" "/p" []).
Proof.
  split; [vm_compute; reflexivity|].
  apply (source_list_shared (constant_world 0) "amd64" "p10" "2024-01-15" "/p"
           "m" "i" None (source_text "amd64" "p10" "2024-01-15") [] []).
  vm_compute; reflexivity.
Defined.

(** ** The verifier on inputs that are not cells *)

(** X5: [test] looks the architecture up before it formats the date,
    [generate_source_list] the other way round.  On an unmapped
    architecture [test] raises [KeyError], on a mapped one with a date
    that is not an ISO date [ValueError], in both cases before any
    [podman] invocation; when both are wrong [test] reports the
    architecture and [generate_source_list] the date. *)
Theorem test_input_errors (w : world) (arch branch date image : string) (t : trace) :
  match ARCH_MAP !! arch, fromisoformat date with
  | None, Ok _ =>
      test w arch branch date image t = (t, Raise (KeyError arch))
      /\ generate_source_list arch branch date = Raise (KeyError arch)
  | None, Raise _ =>
      test w arch branch date image t = (t, Raise (KeyError arch))
      /\ generate_source_list arch branch date = Raise ValueError
  | Some _, Raise _ =>
      test w arch branch date image t = (t, Raise ValueError)
      /\ generate_source_list arch branch date = Raise ValueError
  | Some _, Ok _ => is_ok (generate_source_list arch branch date) = true
  end.
Proof.
  unfold test, generate_source_list, apt_date, dict_get.
  destruct (ARCH_MAP !! arch) as [arch_id|];
    destruct (fromisoformat date) as [d|e] eqn:Hd; cbn [mbind result_bind];
    try (assert (e = ValueError) as ->
           by (unfold fromisoformat, new_date in Hd;
               repeat (match type of Hd with
                       | context [match ?x with _ => _ end] => destruct x
                       end; try discriminate); congruence));
    auto.
Qed.

(** ** An empty set of architectures *)

(** X6: nothing requires the effective set of architectures to be
    non-empty ([-a amd64 --skip-arches amd64] parses).  With no
    architecture, each (branch, date) still has its manifest removed when
    [build_image] is requested and pushed when [push] is requested,
    although no image was committed to it; the two calls are unchecked, so
    the loop body returns normally. *)
Theorem empty_arches_still_reset_and_push (w : world)
    (dir registry organization name : string) (stages : gset string)
    (packages : option (list string)) (branch date : string) (t : trace) :
  let manifest := manifest_name registry organization name branch date in
  let rm := best_effort ["buildah"; "manifest"; "rm"; manifest] in
  let t1 := if has "build_image" stages
            then t ++ [Exec rm (exit_status w t rm)] else t in
  let t2 := if has "push" stages
            then t1 ++ [Exec (push_command manifest)
                          (exit_status w t1 (push_command manifest))]
            else t1 in
  build_date w [] dir registry organization name stages packages branch date t
  = (t2, Ok tt)
  /\ exists args, parse_args w cli_no_arch = Ok args
                  /\ set_order w (args_arches args) = []
                  /\ has "build_image" (args_stages args) = true
                  /\ has "push" (args_stages args) = true.
Proof.
  cbn zeta. split.
  - unfold build_date.
    destruct (has "build_image" stages), (has "push" stages); reflexivity.
  - eexists. split; [reflexivity|]. cbn [args_arches args_stages].
    split; [|split; vm_compute; reflexivity].
    apply Permutation_nil_r. rewrite (set_order_perm w).
    vm_compute. reflexivity.
Qed.

(** ** Coordinates *)

Lemma branch_prefix_free b b' x x' :
  b ∈ all_branches -> b' ∈ all_branches ->
  b +:+ "-" +:+ x = b' +:+ "-" +:+ x' -> b = b' /\ x = x'.
Proof.
  unfold all_branches. intros Hb Hb' H.
  repeat (apply elem_of_cons in Hb as [-> | Hb]);
    try (by apply elem_of_nil in Hb);
    repeat (apply elem_of_cons in Hb' as [-> | Hb']);
    try (by apply elem_of_nil in Hb');
    cbv [String.append] in H; try discriminate H;
    split; congruence.
Qed.

Lemma app_inj_length (s s' x x' : string) :
  String.length s = String.length s' ->
  s +:+ x = s' +:+ x' -> s = s' /\ x = x'.
Proof.
  revert s'. induction s as [|c s IH]; intros [|c' s'] Hl H;
    try discriminate Hl.
  - auto.
  - cbv [String.append] in H. fold String.append in H.
    injection H as -> H. injection Hl as Hl.
    destruct (IH s' Hl H) as [-> ->]. auto.
Qed.

Lemma fromisoformat_length s d : fromisoformat s = Ok d -> String.length s = 10%nat.
Proof.
  unfold fromisoformat. intros H.
  rewrite <- (string_of_list_ascii_of_string s).
  destruct (list_ascii_of_string s) as
    [|y1 [|y2 [|y3 [|y4 [|s1 [|m1 [|m2 [|s2 [|d1 [|d2 [|? ?]]]]]]]]]]];
    try discriminate. reflexivity.
Qed.

(** X7: the coordinates of the matrix do not collide.  For one registry,
    organization and name, two cells with branches of the command line
    and ISO dates have the same image coordinate only if they are the
    same cell, and two (branch, date) pairs the same manifest coordinate
    only if they are the same pair; the image coordinate is the manifest
    coordinate followed by a dash and the architecture. *)
Theorem coordinates_injective (registry organization name : string)
    (b b' d d' a a' : string) (dt dt' : date) :
  b ∈ all_branches -> b' ∈ all_branches ->
  fromisoformat d = Ok dt -> fromisoformat d' = Ok dt' ->
  image_name registry organization name b d a
    = manifest_name registry organization name b d +:+ "-" +:+ a
  /\ (manifest_name registry organization name b d
      = manifest_name registry organization name b' d' -> b = b' /\ d = d')
  /\ (image_name registry organization name b d a
      = image_name registry organization name b' d' a' ->
      b = b' /\ d = d' /\ a = a').
Proof.
  intros Hb Hb' Hd Hd'. split; [|split].
  - unfold image_name, manifest_name. by rewrite !append_assoc.
  - unfold manifest_name. intros H.
    do 4 apply (inj (String.app _)) in H.
    by apply branch_prefix_free.
  - unfold image_name. intros H.
    do 4 apply (inj (String.app _)) in H.
    apply branch_prefix_free in H as [-> H]; [|assumption..].
    apply app_inj_length in H as [-> H].
    + apply (inj (String.app _)) in H. auto.
    + by rewrite (fromisoformat_length _ _ Hd), (fromisoformat_length _ _ Hd').
Qed.

Lemma coordinates_injective_witness :
  "p10" ∈ all_branches /\ "sisyphus" ∈ all_branches
  /\ fromisoformat "2024-01-15" = Ok (mkdate 2024 1 15)
  /\ fromisoformat "2024-02-01" = Ok (mkdate 2024 2 1)
  /\ (manifest_name "r" "o" "n" "p10" "2024-01-15"
      = manifest_name "r" "o" "n" "sisyphus" "2024-02-01" ->
      "p10" = "sisyphus" /\ "2024-01-15" = "2024-02-01").
Proof.
  assert ("p10" ∈ all_branches) as H1
    by (unfold all_branches; rewrite !elem_of_cons; auto).
  assert ("sisyphus" ∈ all_branches) as H2
    by (unfold all_branches; rewrite !elem_of_cons; auto).
  split; [exact H1|]. split; [exact H2|].
  split; [vm_compute; reflexivity|]. split; [vm_compute; reflexivity|].
  apply (coordinates_injective "r" "o" "n" "p10" "sisyphus" "2024-01-15"
           "2024-02-01" "amd64" "arm64" (mkdate 2024 1 15) (mkdate 2024 2 1) H1 H2);
    vm_compute; reflexivity.
Defined.

(** ** The command line *)



(** X9: what a parsed command line holds.  The effective architectures,
    branches and stages are drawn from the three vocabularies of the
    parser; the set of branches is the selected one, untouched by
    [--skip-branches] (whose accepted values are architecture names), and
    is never empty; the registry and the name default to
    [registry.altlinux.org] and [archive]. *)
Theorem parse_args_namespace (w : world) (c : cli) (args : namespace) :
  parse_args w c = Ok args ->
  (forall a, a ∈ args_arches args -> a ∈ all_arches)
  /\ (forall b, b ∈ args_branches args -> b ∈ all_branches)
  /\ (forall s, s ∈ args_stages args -> s ∈ all_stages)
  /\ args_branches args = set_of (default default_branches (opt_branches c))
  /\ args_branches args <> ∅
  /\ args_registry args = default "registry.altlinux.org" (opt_registry c)
  /\ args_name args = default "archive" (opt_name c)
  /\ Some (args_organization args) = opt_organization c.
Proof.
  intros Hp.
  pose proof (parse_args_branches_nonempty w c args Hp) as Hne.
  pose proof (parse_args_ok w c args Hp)
    as (a & sa & b & sb & s & ss & H1 & H2 & H3 & H4 & H5 & H6 & _ & Ha & Hb & Hs).
  assert (forall x, x ∈ a -> x ∈ all_arches) as Ha'.
  { apply list_option_ok in H1 as [[_ ->] | (_ & _ & Hin)]; [|exact Hin].
    unfold default_arches, all_arches. intros x. rewrite !elem_of_cons.
    intros [->|[->|Hx]]; auto; by apply elem_of_nil in Hx. }
  assert (forall x, x ∈ b -> x ∈ all_branches) as Hb'.
  { apply list_option_ok in H3 as [[_ ->] | (_ & _ & Hin)]; [|exact Hin].
    unfold default_branches, all_branches. intros x. rewrite !elem_of_cons.
    intros [->|[->|Hx]]; auto; by apply elem_of_nil in Hx. }
  assert (forall x, x ∈ s -> x ∈ all_stages) as Hs'.
  { apply list_option_ok in H5 as [[_ ->] | (_ & _ & Hin)]; [|exact Hin]. auto. }
  assert (forall x, x ∈ sb -> x ∈ all_arches) as Hsb.
  { apply list_option_ok in H4 as [[_ ->] | (_ & _ & Hin)]; [|exact Hin].
    intros x Hx. by apply elem_of_nil in Hx. }
  assert (b = default default_branches (opt_branches c)) as Hbd.
  { apply list_option_ok in H3 as [[-> ->] | (-> & _)]; reflexivity. }
  split; [|split; [|split; [|split; [|split]]]].
  - intros x. rewrite Ha. unfold set_of. rewrite elem_of_difference, elem_of_list_to_set.
    intros [Hx _]. auto.
  - intros x. rewrite Hb. unfold set_of. rewrite elem_of_difference, elem_of_list_to_set.
    intros [Hx _]. auto.
  - intros x. rewrite Hs. unfold set_of. rewrite elem_of_difference, elem_of_list_to_set.
    intros [Hx _]. auto.
  - rewrite Hb, <- Hbd. unfold set_of. apply set_eq. intros x.
    rewrite elem_of_difference, !elem_of_list_to_set. split; [by intros [? _]|].
    intros Hx. split; [exact Hx|]. intros Hx'.
    by apply (all_branches_not_arches x (Hb' x Hx)), Hsb.
  - intros He. apply Hne. rewrite He. apply Permutation_nil_r.
    rewrite (set_order_perm w), elements_empty. reflexivity.
  - revert Hp. unfold parse_args.
    destruct (opt_organization c) as [o|];
      repeat (match goal with
              | |- context [@mbind result _ _ _ _ ?r] =>
                  destruct r; cbn [mbind result_bind]; try discriminate
              end).
    intros [= <-]. cbn. auto.
Qed.

Lemma parse_args_namespace_witness :
  parse_args (constant_world 0) cli_clean = Ok args_clean
  /\ args_branches args_clean = set_of default_branches
  /\ args_registry args_clean = "registry.altlinux.org".
Proof.
  split; [vm_compute; reflexivity|].
  destruct (parse_args_namespace (constant_world 0) cli_clean args_clean)
    as (_ & _ & _ & Hb & _ & Hr & _); [vm_compute; reflexivity|].
  split; [exact Hb | exact Hr].
Defined.

(** ** Dates, both ways *)







(** * Further properties of whole runs *)

(** ** How a run can end *)

Section Outcomes.

Variable w : world.
Variable fatal : command -> Prop.
Variable allowed : exn -> Prop.









End Outcomes.



Section RunOutcomes.

Variable w : world.
Variable allowed : exn -> Prop.
Hypothesis allowed_ValueError : allowed ValueError.







End RunOutcomes.



(** ** Runs in which nothing fails *)

Section Returns.

Variable w : world.
Hypothesis checked_succeed : forall t c, check c = true -> exit_status w t c = 0.







End Returns.



(** ** The prune *)

Lemma cell_plan_no_prune (w : world) dir registry organization name stages
    packages branch date arch :
  Forall (fun a => is_prune a = false)
    (cell_plan w dir registry organization name stages packages branch date arch).
Proof.
  unfold cell_plan.
  destruct (has "build_tarball" stages), (has "build_image" stages),
    (has "test" stages);
    unfold build_tarball_plan, buildah_build_plan, buildah_build_commands,
      install_commands, test_plan, test_checks;
    destruct (truthy packages); repeat constructor.
Qed.

Lemma matrix_plan_no_prune (w : world) arches branches dates dir registry
    organization name stages packages :
  Forall (fun a => is_prune a = false)
    (matrix_plan w arches branches dates dir registry organization name stages packages).
Proof.
  unfold matrix_plan. apply Forall_flat_map. intros branch.
  apply Forall_flat_map. intros date. unfold date_plan.
  rewrite !Forall_app. split; [|split].
  - destruct (has "build_image" stages); repeat constructor.
  - apply Forall_flat_map. intros arch. apply cell_plan_no_prune.
  - destruct (has "push" stages); repeat constructor.
Qed.

(** X14: [podman system prune -af] is the last thing a run does, and
    only a run that got through the whole matrix does it.  A run that
    raises has pruned nothing; a run that returns has pruned at most
    once, as its last invocation, and exactly then when [clean] is in the
    effective stage set. *)
Theorem prune_only_at_the_end (w : world) (c : cli) (t : trace) :
  exists evs,
    fst (main w c t) = t ++ evs
    /\ match snd (main w c t), parse_args w c with
       | Ok _, Ok args =>
           exists pre,
             Forall (fun e => is_prune (action_of e) = false) pre
             /\ evs = pre ++ (if has "clean" (args_stages args)
                              then [Exec prune_command
                                      (exit_status w (t ++ pre) prune_command)]
                              else [])
       | Ok _, Raise _ => False
       | Raise _, _ => Forall (fun e => is_prune (action_of e) = false) evs
       end.
Proof.
  unfold main. destruct (parse_args w c) as [args|e] eqn:Hp.
  - rewrite lift_ok_bind, bind_run.
    destruct (follows_Forall _ _ (fun a => is_prune a = false)
                (follows_build_all w (set_order w (args_arches args))
                   (set_order w (args_branches args)) (args_dates args)
                   (args_mkimage_profiles_dir args) (args_registry args)
                   (args_organization args) (args_name args) (args_stages args)
                   (args_packages args))
                (matrix_plan_no_prune w _ _ _ _ _ _ _ _ _) t)
      as (pre & Ht & Hpre).
    destruct (build_all w _ _ _ _ _ _ _ _ _ t) as [t' [[]|e]]; cbn [fst] in Ht; subst t'.
    + destruct (has "clean" (args_stages args)); cbn [when].
      * exists (pre ++ [Exec prune_command (exit_status w (t ++ pre) prune_command)]).
        unfold clean, subprocess_run. cbn [fst snd check prune_command run andb].
        split; [by rewrite app_assoc|]. exists pre. auto.
      * exists pre. split; [reflexivity|]. cbn [snd mret M_ret].
        exists pre. by rewrite app_nil_r.
    + exists pre. split; [reflexivity|]. exact Hpre.
  - exists []. cbn. rewrite app_nil_r. split; [reflexivity|constructor].
Qed.

